(** * CT protocol recommendation: the notebook's batch loop and the decision rule table

    The repository's executable logic is the batch loop of
    [notebooks/ct_protocol_analysis.ipynb]: it reads each row of the input
    table, normalises the eGFR cell, builds [patient_info], calls
    [generate_protocol_recommendations] and appends one result dict per row.
    The loop is embedded here as it is written, over a small model of the
    Python values it handles.  The function [generate_protocol_recommendations]
    lives in [utils.py], which is not part of the sources: in the loop it is a
    parameter, and the decision rules themselves are modelled from the
    specification (module [Engine]). *)

From Stdlib Require Import ZArith String Ascii List Bool Lia Permutation.
From Stdlib Require Import Floats.PrimFloat Floats.SpecFloat Floats.FloatOps.
From stdpp Require Import gmap strings.

Local Open Scope string_scope.
Local Open Scope Z_scope.

(** ** Python values, exceptions and the error monad *)

Module Py.

(** The values a cell of the table, the eGFR variable and a field of a result
    dict can hold.  [VFloat nan] is pandas' NaN; [VNone] is Python's [None]. *)
Inductive value : Type :=
| VNone
| VStr (s : string)
| VInt (n : Z)
| VFloat (f : float).

(** The subclasses of [Exception] the loop body can raise; [OtherError] stands
    for whatever other [Exception] the recommendation backend raises. *)
Inductive exn : Type :=
| KeyError (key : string)
| ValueError
| TypeError
| OverflowError
| OtherError (msg : string).

(** The exceptions that are not subclasses of [Exception]: a clause
    [except Exception] does not catch them. *)
Inductive base_exn : Type :=
| SystemExit
| KeyboardInterrupt
| GeneratorExit.

(** What can leave a block: an [Exception] or one of the others. *)
Inductive raised : Type :=
| Exception (e : exn)
| BaseException (b : base_exn).

(** A computation returns a value, raises an [Exception], or raises an
    exception that is not an [Exception]. *)
Inductive result (A : Type) : Type :=
| Ok (a : A)
| Raise (e : exn)
| RaiseBase (b : base_exn).
Arguments Ok {A} a.
Arguments Raise {A} e.
Arguments RaiseBase {A} b.

#[global] Instance result_ret : MRet result := fun A a => Ok a.
#[global] Instance result_bind : MBind result := fun A B k m =>
  match m with
  | Ok a => k a
  | Raise e => Raise e
  | RaiseBase b => RaiseBase b
  end.

(** A computation that only returns or raises an [Exception]. *)
Definition no_base {A : Type} (m : result A) : Prop :=
  forall b, m <> RaiseBase b.

(** Code points that [str.isspace] accepts, for the Latin-1 text the table is
    read with: TAB..CR, FS..US, space, NEL and NBSP. *)
Definition is_space (c : ascii) : bool :=
  let n := N_of_ascii c in
  ((9 <=? n) && (n <=? 13) || (28 <=? n) && (n <=? 32)
   || (n =? 133) || (n =? 160))%N.

Fixpoint lstrip (s : string) : string :=
  match s with
  | String c s' => if is_space c then lstrip s' else s
  | EmptyString => EmptyString
  end.

Fixpoint rstrip (s : string) : string :=
  match s with
  | String c s' =>
      match rstrip s' with
      | EmptyString => if is_space c then EmptyString else String c EmptyString
      | t => String c t
      end
  | EmptyString => EmptyString
  end.

(** [s.strip()] *)
Definition strip (s : string) : string := rstrip (lstrip s).

Definition lower_ascii (c : ascii) : ascii :=
  let n := N_of_ascii c in
  if ((65 <=? n) && (n <=? 90))%N then ascii_of_N (n + 32) else c.

(** [s.lower()] on ASCII letters. *)
Fixpoint lower (s : string) : string :=
  match s with
  | String c s' => String (lower_ascii c) (lower s')
  | EmptyString => EmptyString
  end.

(** [isinstance(v, (int, float))] *)
Definition is_number (v : value) : bool :=
  match v with VInt _ | VFloat _ => true | _ => false end.

(** [pd.isna(v)] on a scalar: [None] and NaN. *)
Definition isna (v : value) : bool :=
  match v with
  | VNone => true
  | VFloat f => PrimFloat.is_nan f
  | _ => false
  end.

(** The float nearest to an integer (ties to even), as [float(n)] computes it;
    an integer too large for a float gives [infinity] here. *)
Definition float_of_Z (n : Z) : float :=
  SF2Prim (binary_normalize prec emax n 0 false).

(** The exact value of an integer compared with that of a float, as Python's
    [int == float] does. *)
Definition int_eq_float (n : Z) (f : float) : bool :=
  match Prim2SF f with
  | S754_zero _ => n =? 0
  | S754_finite sign m e =>
      let v := if sign then Z.neg m else Z.pos m in
      if 0 <=? e then n =? v * 2 ^ e else n * 2 ^ (- e) =? v
  | _ => false
  end.

(** [a == b] *)
Definition py_eq (a b : value) : bool :=
  match a, b with
  | VNone, VNone => true
  | VStr s, VStr t => String.eqb s t
  | VInt n, VInt m => n =? m
  | VFloat f, VFloat g => PrimFloat.eqb f g
  | VInt n, VFloat f | VFloat f, VInt n => int_eq_float n f
  | _, _ => false
  end.

(** [v in l] for a list [l] of strings. *)
Definition in_strings (v : value) (l : list string) : bool :=
  existsb (fun s => py_eq v (VStr s)) l.

End Py.
Import Py.

(** ** The batch loop of the notebook *)

Module Notebook.

(** A row of the table ([pandas.Series]): column name to cell. *)
Abbreviation row := (gmap string value).

(** [row[k]]: raises [KeyError] when the table has no column [k]. *)
Definition getitem (r : row) (k : string) : result value :=
  match r !! k with
  | Some v => Ok v
  | None => Raise (KeyError k)
  end.

(** [row.get(k)]: [None] when the table has no column [k]. *)
Definition get (r : row) (k : string) : value :=
  match r !! k with
  | Some v => v
  | None => VNone
  end.

Definition no_data_variants : list string :=
  ["no data"; "No data"; "NO DATA"; "No Data"; ""].

(** [isinstance(egfr_value, str) and egfr_value.strip() == ">90"] *)
Definition is_gt90 (egfr_value : value) : bool :=
  match egfr_value with
  | VStr s => py_eq (VStr (strip s)) (VStr ">90")
  | _ => false
  end.

Section Float.

(** The builtin [float()] on a string: the number it reads, or [None]
    where it raises [ValueError]. *)
Variable float_of_str : string -> option float.

(** [float(v)] *)
Definition py_float (v : value) : result float :=
  match v with
  | VFloat f => Ok f
  | VInt n =>
      let f := float_of_Z n in
      if PrimFloat.is_infinity f then Raise OverflowError else Ok f
  | VStr s =>
      match float_of_str s with Some f => Ok f | None => Raise ValueError end
  | VNone => Raise TypeError
  end.

(** Lines 57-70 of the loop: the value of [egfr] computed from the cell
    [egfr_value], or the exception [float()] raises. *)
Definition parse_egfr (egfr_value : value) : result value :=
  if isna egfr_value || in_strings egfr_value no_data_variants then
    Ok (VStr "no data")
  else
    if is_gt90 egfr_value then Ok (VInt 90)
    else f ← py_float egfr_value; Ok (VFloat f).

End Float.

(** The dict [patient_info] of lines 73-83. *)
Record patient_info : Type := {
  pi_Study_ID : value;
  pi_Location : value;
  pi_Age : value;
  pi_Sex : value;
  pi_CT_Exam : value;
  pi_Clinical_Info : value;
  pi_Prior_Reaction : value;
  pi_eGFR : value;
  pi_Creatinine : value
}.

(** [patient_info] with another value under ['Location']. *)
Definition set_location (info : patient_info) (loc : value) : patient_info :=
  {| pi_Study_ID := pi_Study_ID info; pi_Location := loc; pi_Age := pi_Age info;
     pi_Sex := pi_Sex info; pi_CT_Exam := pi_CT_Exam info;
     pi_Clinical_Info := pi_Clinical_Info info;
     pi_Prior_Reaction := pi_Prior_Reaction info; pi_eGFR := pi_eGFR info;
     pi_Creatinine := pi_Creatinine info |}.

(** What [generate_protocol_recommendations] hands back: a dict, or an
    object that cannot be subscripted with a string. *)
Inductive object : Type :=
| ODict (d : gmap string value)
| OOther.

(** [completions[k]] *)
Definition subscript (completions : object) (k : string) : result value :=
  match completions with
  | ODict d => match d !! k with Some v => Ok v | None => Raise (KeyError k) end
  | OOther => Raise TypeError
  end.

(** One dict appended to [results]. *)
Record recommendation : Type := {
  Study_ID : value;
  Priority : value;
  Protocol : value;
  IV_Contrast : value;
  Oral_Contrast : value
}.

Section Loop.

Variable float_of_str : string -> option float.

(** [generate_protocol_recommendations(patient_info, egfr)] of [utils.py]:
    a call to an external backend.  [world] is whatever state that backend
    keeps between calls; the call returns an object, raises an [Exception]
    or is left by another exception ([SystemExit], [KeyboardInterrupt]), and
    leaves a new state.  The call is the one place of the loop body where
    such an exception is taken to arise: an interrupt delivered while
    another statement runs is not modelled. *)
Variable world : Type.
Variable generate_protocol_recommendations :
  world -> patient_info -> value -> result object * world.

(** Lines 57-83: the eGFR value, then the dict literal, its entries
    evaluated in the order they are written. *)
Definition build_patient_info (r : row) : result (patient_info * value) :=
  egfr ← parse_egfr float_of_str (get r "eGFR (mL/min)");
  study_id ← getitem r "Study ID #";
  location ← getitem r "Location [IP, ER, OP]";
  age ← getitem r "Age";
  sex ← getitem r "Sex";
  ct_exam ← getitem r "CT Exam Requested";
  clinical_info ← getitem r "Clinical Information/Reason for Scan";
  prior_reaction ←
    getitem r "Previous adverse reaction to contrast (if YES, what type)";
  creatinine ← getitem r "Creatinine (umol/L)";
  Ok ({| pi_Study_ID := study_id; pi_Location := location; pi_Age := age;
         pi_Sex := sex; pi_CT_Exam := ct_exam;
         pi_Clinical_Info := clinical_info;
         pi_Prior_Reaction := prior_reaction; pi_eGFR := egfr;
         pi_Creatinine := creatinine |}, egfr).

(** Lines 89-95: the dict built from [completions]. *)
Definition store_results (r : row) (completions : object) : result recommendation :=
  study_id ← getitem r "Study ID #";
  priority ← subscript completions "priority";
  protocol ← subscript completions "protocol";
  iv_contrast ← subscript completions "iv_contrast";
  oral_contrast ← subscript completions "oral_contrast";
  Ok {| Study_ID := study_id; Priority := priority; Protocol := protocol;
        IV_Contrast := iv_contrast; Oral_Contrast := oral_contrast |}.

(** The body of [try] (lines 56-95): the dict to append, or the exception
    that left the block. *)
Definition try_block (w : world) (r : row) : result recommendation * world :=
  match build_patient_info r with
  | Raise e => (Raise e, w)
  | RaiseBase b => (RaiseBase b, w)
  | Ok (info, egfr) =>
      match generate_protocol_recommendations w info egfr with
      | (Raise e, w') => (Raise e, w')
      | (RaiseBase b, w') => (RaiseBase b, w')
      | (Ok completions, w') => (store_results r completions, w')
      end
  end.

(** The handler (lines 97-105), after its [print]: it reads the study
    identifier again, so it can raise in its turn. *)
Definition except_block (r : row) : result recommendation :=
  study_id ← getitem r "Study ID #";
  Ok {| Study_ID := study_id; Priority := VNone; Protocol := VNone;
        IV_Contrast := VNone; Oral_Contrast := VNone |}.

(** One iteration: the dict appended to [results], or the exception that
    leaves the loop.  The clause [except Exception] hands an [Exception] to
    the handler and lets any other exception through. *)
Definition process_row (w : world) (r : row) : result recommendation * world :=
  match try_block w r with
  | (Ok rec, w') => (Ok rec, w')
  | (Raise _, w') => (except_block r, w')
  | (RaiseBase b, w') => (RaiseBase b, w')
  end.

(** The [for] loop (lines 54-105) from a given [results] list: the list
    when the loop ends, the exception that ended it if one did, and the
    backend's state. *)
Fixpoint batch_loop (w : world) (results : list recommendation) (rows : list row)
  : list recommendation * option raised * world :=
  match rows with
  | [] => (results, None, w)
  | r :: rest =>
      match process_row w r with
      | (Ok rec, w') => batch_loop w' (results ++ [rec]) rest
      | (Raise e, w') => (results, Some (Exception e), w')
      | (RaiseBase b, w') => (results, Some (BaseException b), w')
      end
  end.

(** [results = []] followed by the loop. *)
Definition process_batch (w : world) (rows : list row)
  : list recommendation * option raised * world :=
  batch_loop w [] rows.

End Loop.

(** The dict the handler appends for a row whose study identifier is [sid]. *)
Definition null_recommendation (sid : value) : recommendation :=
  {| Study_ID := sid; Priority := VNone; Protocol := VNone;
     IV_Contrast := VNone; Oral_Contrast := VNone |}.

(** The four keys the loop reads from [completions]. *)
Definition decision_keys : list string :=
  ["priority"; "protocol"; "iv_contrast"; "oral_contrast"].

(** The backend never answers with a dict that holds [None] under one of the
    four keys. *)
Definition answers_populated {world : Type}
  (backend : world -> patient_info -> value -> result object * world) : Prop :=
  forall w info egfr d w' k,
    backend w info egfr = (Ok (ODict d), w') ->
    In k decision_keys -> d !! k <> Some VNone.




(** The [usecols] callable given to [read_csv] (line 47): a column of the
    file is read when its header, stripped, is not empty. *)
Definition usecols (column : string) : bool :=
  negb (String.eqb (strip column) "").

(** The columns the dict literal of lines 73-83 reads with [row[...]], in the
    order it reads them. *)
Definition patient_info_columns : list string :=
  ["Study ID #"; "Location [IP, ER, OP]"; "Age"; "Sex"; "CT Exam Requested";
   "Clinical Information/Reason for Scan";
   "Previous adverse reaction to contrast (if YES, what type)";
   "Creatinine (umol/L)"].

(** A backend observed through a call counter: it answers as [backend] does,
    and the counter kept beside its state goes up by one at each call. *)
Definition counting {world : Type}
  (backend : world -> patient_info -> value -> result object * world)
  : world * nat -> patient_info -> value -> result object * (world * nat) :=
  fun wn info egfr =>
    match backend (fst wn) info egfr with
    | (answer, w') => (answer, (w', S (snd wn)))
    end.

(** The calls a loop made beyond those for the rows that got a record: one
    when it was left from a backend call. *)
Definition last_call (st : option raised) : nat :=
  match st with
  | Some (BaseException _) => 1%nat
  | _ => 0%nat
  end.

(** Whether lines 57-83 run through for a row, so that the backend is called. *)
Definition reaches_backend (float_of_str : string -> option float) (r : row) : bool :=
  match build_patient_info float_of_str r with
  | Ok _ => true
  | _ => false
  end.

End Notebook.

(** ** The decision engine *)

Module Engine.

(** Modelled from the spec: the enumerations of the data model (section 3);
    [utils.py], which holds the decision code, is not among the sources. *)
Inductive Location : Type := Inpatient | EmergencyRoom | Outpatient.

Inductive Sex : Type := Male | Female | OtherUnknown.

(** Modelled from the spec: the eGFR field of a PatientRecord, "a numeric
    value in mL/min, the sentinel NoData, or the sentinel GreaterThan90". *)
Inductive EGFR : Type :=
| NoData
| GreaterThan90
| Numeric (v : float).

(** Modelled from the spec: PatientRecord (section 3). *)
Record PatientRecord : Type := {
  study_id : value;
  location : Location;
  age : option N;
  sex : Sex;
  exam_requested : string;
  clinical_info : string;
  prior_reaction : string;
  egfr : EGFR;
  creatinine : option float
}.

Inductive ProtocolName : Type := AP | CAP | Specialized (name : string).

Inductive IVContrast : Type := CPlus | CMinus | CPlusAndCMinus.

Inductive OralContrast : Type :=
| NoOral | WaterBase | WaterOnly | ReadiCat | OtherOral.

(** Modelled from the spec: the four fields [decide] returns, all populated. *)
Record Decision : Type := {
  priority : Z;
  protocol : ProtocolName;
  iv_contrast : IVContrast;
  oral_contrast : OralContrast
}.

(** Modelled from the spec: Recommendation (section 3); a field is [None]
    where the spec says null. *)
Record Recommendation : Type := {
  rec_study_id : value;
  rec_priority : option Z;
  rec_protocol : option ProtocolName;
  rec_iv_contrast : option IVContrast;
  rec_oral_contrast : option OralContrast
}.

(** Modelled from the spec: the keyword signals the rules read from the free
    text.  The spec leaves the keyword sets to the implementer "as a
    configurable table" (section 9), so the engine takes them as a table
    of predicates on text. *)
Record RuleTable : Type := {
  urgent : string -> bool;
  staging : string -> bool;
  routine : string -> bool;
  specialized : list ((string -> bool) * string);
  chest : string -> bool;
  renal_colic : string -> bool;
  mass_characterization : string -> bool;
  gi_ovarian_malignancy : string -> bool;
  urogram : string -> bool;
  special_preparation : string -> bool;
  readi_cat : string -> bool
}.

(** Modelled from the spec: a signal is present when [exam_requested] or
    [clinical_info] carries it. *)
Definition signal (f : string -> bool) (r : PatientRecord) : bool :=
  f (exam_requested r) || f (clinical_info r).

Inductive RenalStatus : Type := Unknown | Safe | Contraindicated.

(** Modelled from the spec: IV-contrast step 1, "resolve effective eGFR". *)
Definition effective_egfr (e : EGFR) : RenalStatus :=
  match e with
  | NoData => Unknown
  | GreaterThan90 => Safe
  | Numeric v =>
      if PrimFloat.ltb v 30 then Contraindicated
      else if PrimFloat.leb 30 v then Safe
      else Unknown
  end.

Section Rules.

Variable tbl : RuleTable.

(** Modelled from the spec: the priority rules of section 4.2, in their
    order.  An inpatient with no staging or routine wording is the
    "location alone" case of rule 2. *)
Definition priority_of (r : PatientRecord) : Z :=
  match location r with
  | EmergencyRoom => 1
  | Inpatient =>
      if signal (urgent tbl) r then 1
      else if negb (signal (staging tbl) r || signal (routine tbl) r) then 2
      else if signal (staging tbl) r then 3
      else 4
  | Outpatient =>
      if signal (urgent tbl) r then 2
      else if signal (staging tbl) r then 3
      else 4
  end.

(** Modelled from the spec: the protocol rules; the first specialised
    trigger that fires names the protocol. *)
Definition protocol_of (r : PatientRecord) : ProtocolName :=
  match List.find (fun t => signal (fst t) r) (specialized tbl) with
  | Some (_, name) => Specialized name
  | None => if signal (chest tbl) r then CAP else AP
  end.

(** Modelled from the spec: the IV-contrast rules 2-5. *)
Definition iv_contrast_of (r : PatientRecord) : IVContrast :=
  if signal (renal_colic tbl) r then CMinus
  else
    match effective_egfr (egfr r) with
    | Contraindicated => CMinus
    | _ => if signal (mass_characterization tbl) r then CPlusAndCMinus
           else CPlus
    end.

(** Modelled from the spec: the oral-contrast rules. *)
Definition oral_contrast_of (r : PatientRecord) : OralContrast :=
  if signal (gi_ovarian_malignancy tbl) r then WaterBase
  else if signal (urogram tbl) r then WaterOnly
  else if signal (special_preparation tbl) r then
         if signal (readi_cat tbl) r then ReadiCat else OtherOral
  else NoOral.

(** Modelled from the spec: [decide(record)], the four axes computed
    independently and combined. *)
Definition decide (r : PatientRecord) : Decision :=
  {| priority := priority_of r;
     protocol := protocol_of r;
     iv_contrast := iv_contrast_of r;
     oral_contrast := oral_contrast_of r |}.

(** Modelled from the spec: the Recommendation Assembler (section 4.3);
    [None] is a failed normalisation or decision. *)
Definition assemble (sid : value) (d : option Decision) : Recommendation :=
  match d with
  | Some d =>
      {| rec_study_id := sid;
         rec_priority := Some (priority d);
         rec_protocol := Some (protocol d);
         rec_iv_contrast := Some (iv_contrast d);
         rec_oral_contrast := Some (oral_contrast d) |}
  | None =>
      {| rec_study_id := sid; rec_priority := None; rec_protocol := None;
         rec_iv_contrast := None; rec_oral_contrast := None |}
  end.

Definition recommend (r : PatientRecord) : Recommendation :=
  assemble (study_id r) (Some (decide r)).

End Rules.

(** Modelled from the spec: how the engine reads the eGFR value the notebook
    passes it, which is ["no data"], the integer 90 or a float. *)
Definition egfr_of_value (v : value) : option EGFR :=
  match v with
  | VStr s => if String.eqb s "no data" then Some NoData else None
  | VInt n => Some (Numeric (float_of_Z n))
  | VFloat f => Some (Numeric f)
  | VNone => None
  end.

(** Modelled from the spec: a record that differs only in its eGFR field. *)
Definition with_egfr (r : PatientRecord) (e : EGFR) : PatientRecord :=
  {| study_id := study_id r; location := location r; age := age r;
     sex := sex r; exam_requested := exam_requested r;
     clinical_info := clinical_info r; prior_reaction := prior_reaction r;
     egfr := e; creatinine := creatinine r |}.

(** Modelled from the spec: the location codes of the input column
    "Location [IP, ER, OP]" (section 6) mapped into the enumeration; any other
    text fails validation. *)
Definition location_of_text (s : string) : option Location :=
  if String.eqb s "IP" then Some Inpatient
  else if String.eqb s "ER" then Some EmergencyRoom
  else if String.eqb s "OP" then Some Outpatient
  else None.

Definition populated (rec : Recommendation) : Prop :=
  is_Some (rec_priority rec) /\ is_Some (rec_protocol rec) /\
  is_Some (rec_iv_contrast rec) /\ is_Some (rec_oral_contrast rec).

End Engine.

(** ** Sample tables, rows and backends for running the definitions *)

Module Samples.
Import Notebook.

(** [needle in hay] *)
Fixpoint contains (needle hay : string) : bool :=
  if String.prefix needle hay then true
  else match hay with
       | String _ rest => contains needle rest
       | EmptyString => false
       end.

Definition mentions (keywords : list string) (text : string) : bool :=
  existsb (fun k => contains k (lower text)) keywords.

(** Modelled from the spec: one keyword table, enough for the wording of the
    end-to-end examples of section 8; the spec fixes no keyword list. *)
Definition sample_table : Engine.RuleTable :=
  {| Engine.urgent := mentions ["urgent"; "acute"; "stat"];
     Engine.staging := mentions ["staging"; "malignancy"];
     Engine.routine := mentions ["routine"; "follow-up"; "follow up"];
     Engine.specialized :=
       [(mentions ["renal colic"; "renal stone"], "renal colic protocol");
        (mentions ["renal mass"], "renal mass protocol");
        (mentions ["urogram"], "CT urogram")];
     Engine.chest := mentions ["chest"];
     Engine.renal_colic := mentions ["renal colic"; "renal stone"];
     Engine.mass_characterization := mentions ["renal mass"; "characterization"];
     Engine.gi_ovarian_malignancy := mentions ["ovarian"; "gi malignancy"];
     Engine.urogram := mentions ["urogram"];
     Engine.special_preparation := mentions ["special preparation"; "readi-cat"];
     Engine.readi_cat := mentions ["readi-cat"] |}.

Definition sample_record (loc : Engine.Location) (exam : string) (e : Engine.EGFR)
  : Engine.PatientRecord :=
  {| Engine.study_id := VStr "S-001"; Engine.location := loc;
     Engine.age := Some 61%N; Engine.sex := Engine.Female;
     Engine.exam_requested := exam; Engine.clinical_info := "";
     Engine.prior_reaction := "none"; Engine.egfr := e;
     Engine.creatinine := None |}.

(** A row with the nine columns of the table. *)
Definition sample_row (sid location egfr_cell : value) : row :=
  <[ "Study ID #" := sid ]>
  (<[ "Location [IP, ER, OP]" := location ]>
  (<[ "Age" := VInt 61 ]>
  (<[ "Sex" := VStr "F" ]>
  (<[ "CT Exam Requested" := VStr "CT abdomen pelvis" ]>
  (<[ "Clinical Information/Reason for Scan" := VStr "abdominal pain" ]>
  (<[ "Previous adverse reaction to contrast (if YES, what type)" := VStr "No" ]>
  (<[ "eGFR (mL/min)" := egfr_cell ]>
  (<[ "Creatinine (umol/L)" := VFloat 80 ]> ∅)))))))).

(** The same row read from a table that has no "Study ID #" column. *)
Definition row_without_study_id (location egfr_cell : value) : row :=
  delete "Study ID #" (sample_row VNone location egfr_cell).

(** A [float()] that reads no string at all. *)
Definition float_rejects : string -> option float := fun _ => None.

Definition sample_completions : gmap string value :=
  <[ "priority" := VInt 4 ]>
  (<[ "protocol" := VStr "A/P" ]>
  (<[ "iv_contrast" := VStr "C+" ]>
  (<[ "oral_contrast" := VStr "None" ]> ∅))).


(** A backend without state that answers every call with [answer]. *)
Definition fixed_backend (answer : result object)
  : unit -> patient_info -> value -> result object * unit :=
  fun w _ _ => (answer, w).

(** A backend that reports the location it was called with as the protocol,
    and counts its calls. *)
Definition probe_backend : nat -> patient_info -> value -> result object * nat :=
  fun w info _ =>
    (Ok (ODict (<[ "protocol" := pi_Location info ]> sample_completions)), S w).

End Samples.

(** * Properties *)

Local Open Scope list_scope.

(** ** The error monad *)

Lemma bind_ok {A B : Type} (a : A) (k : A -> result B) : (Ok a ≫= k) = k a.
Proof. reflexivity. Qed.

Lemma bind_raise {A B : Type} (e : exn) (k : A -> result B) :
  (Raise e ≫= k) = Raise e.
Proof. reflexivity. Qed.

Lemma bind_ok_inv {A B : Type} (m : result A) (k : A -> result B) (b : B) :
  (m ≫= k) = Ok b -> exists a, m = Ok a /\ k a = Ok b.
Proof. destruct m as [a | e | x]; [eauto | discriminate | discriminate]. Qed.

Lemma bind_no_base {A B : Type} (m : result A) (k : A -> result B) :
  no_base m -> (forall a, no_base (k a)) -> no_base (m ≫= k).
Proof.
  intros Hm Hk b. destruct m as [a | e | x].
  - apply Hk.
  - discriminate.
  - destruct (Hm x). reflexivity.
Qed.

Lemma bind_raise_base {A B : Type} (x : base_exn) (k : A -> result B) :
  (RaiseBase x ≫= k) = RaiseBase x.
Proof. reflexivity. Qed.

Ltac step_bind := rewrite ?bind_ok, ?bind_raise, ?bind_raise_base.

(** ** The eGFR cell (lines 57-70) *)

Section ParseFacts.
Import Notebook.

Variable float_of_str : string -> option float.

Local Abbreviation parse := (parse_egfr float_of_str).

Lemma in_no_data_variants (s : string) :
  in_strings (VStr s) no_data_variants = true <-> In s no_data_variants.
Proof.
  unfold in_strings. rewrite existsb_exists. split.
  - intros (t & Hin & Heq). simpl in Heq.
    apply String.eqb_eq in Heq. now subst.
  - intros Hin. exists s. split; [assumption | simpl; apply String.eqb_refl].
Qed.

Lemma stripped_gt90_not_variant (s : string) :
  strip s = ">90" -> in_strings (VStr s) no_data_variants = false.
Proof.
  intros Hs. destruct (in_strings (VStr s) no_data_variants) eqn:E; [|reflexivity].
  apply in_no_data_variants in E. simpl in E.
  repeat (destruct E as [E | E]; [subst s; vm_compute in Hs; discriminate |]).
  destruct E.
Qed.

(** A string that strips to [">90"] becomes the integer 90. *)
Lemma parse_gt90 (s : string) :
  strip s = ">90" -> parse (VStr s) = Ok (VInt 90).
Proof.
  intros Hs. unfold parse_egfr.
  rewrite (stripped_gt90_not_variant s Hs). simpl. now rewrite Hs.
Qed.

(** A cell that is missing or NaN becomes the marker ["no data"]. *)
Lemma parse_missing (v : value) :
  isna v = true -> parse v = Ok (VStr "no data").
Proof. intros H. unfold parse_egfr. now rewrite H. Qed.

(** Whatever [float()] does, the two other branches never produce the
    marker: the result is the integer 90, a float, or an exception. *)
Lemma parse_no_data_inv (v : value) :
  parse v = Ok (VStr "no data") ->
  isna v = true \/ in_strings v no_data_variants = true.
Proof.
  unfold parse_egfr.
  destruct (isna v); [now left|].
  destruct (in_strings v no_data_variants); [now right|]. simpl.
  destruct (is_gt90 v); [discriminate|].
  destruct (py_float float_of_str v); simpl; discriminate.
Qed.


End ParseFacts.

(** C2 (counterexample): the string [">90"] does not parse to a sentinel kept
    apart from the number 90.  The loop assigns the integer 90, which is a
    number and compares equal to the float 90.0 that a numeric cell 90 gives. *)
Lemma gt90_sentinel_counterexample :
  (forall fos, Notebook.parse_egfr fos (VStr ">90") = Ok (VInt 90))
  /\ is_number (VInt 90) = true
  /\ py_eq (VInt 90) (VFloat 90) = true
  /\ ~ (exists fos v, Notebook.parse_egfr fos (VStr ">90") = Ok v
                      /\ (is_number v = false \/ py_eq v (VFloat 90) = false)).
Proof.
  assert (H : forall fos, Notebook.parse_egfr fos (VStr ">90") = Ok (VInt 90))
    by (intros fos; now apply parse_gt90).
  split; [exact H|]. split; [reflexivity|]. split; [reflexivity|].
  intros (fos & v & Hv & Hd). rewrite H in Hv. injection Hv as <-.
  destruct Hd as [Hd | Hd]; vm_compute in Hd; discriminate.
Qed.

(** C2 (amended): a string that is [">90"] once its surrounding whitespace is
    stripped parses to the integer 90.  That value is an ordinary number: it
    compares equal to the float 90.0 parsed from a numeric cell 90, the
    decision engine reads both as the same numeric eGFR and not as
    GreaterThan90, and that numeric eGFR is "safe" for the IV-contrast gate,
    as GreaterThan90 is. *)
Theorem gt90_parses_to_number_90 (float_of_str : string -> option float) (s : string) :
  strip s = ">90" ->
  Notebook.parse_egfr float_of_str (VStr s) = Ok (VInt 90)
  /\ Notebook.parse_egfr float_of_str (VFloat 90) = Ok (VFloat 90)
  /\ Notebook.parse_egfr float_of_str (VInt 90) = Ok (VFloat 90)
  /\ py_eq (VInt 90) (VFloat 90) = true
  /\ Engine.egfr_of_value (VInt 90) = Some (Engine.Numeric 90)
  /\ Engine.egfr_of_value (VFloat 90) = Some (Engine.Numeric 90)
  /\ Engine.effective_egfr (Engine.Numeric 90) = Engine.Safe
  /\ Engine.effective_egfr Engine.GreaterThan90 = Engine.Safe.
Proof.
  intros Hs. split; [now apply parse_gt90|].
  repeat split; reflexivity.
Qed.

Lemma gt90_parses_to_number_90_witness :
  strip "  >90 " = ">90"
  /\ Notebook.parse_egfr Samples.float_rejects (VStr "  >90 ") = Ok (VInt 90).
Proof.
  split; [reflexivity|].
  apply (gt90_parses_to_number_90 Samples.float_rejects "  >90 "). reflexivity.
Defined.

(** C5 (counterexample): ["no Data"] is a case variant of ["no data"], yet the
    loop does not map it to the marker: it is handed to [float()]. *)
Lemma mixed_case_no_data_counterexample :
  lower "no Data" = "no data"
  /\ (forall fos, Notebook.parse_egfr fos (VStr "no Data") <> Ok (VStr "no data"))
  /\ Notebook.parse_egfr Samples.float_rejects (VStr "no Data") = Raise ValueError.
Proof.
  split; [reflexivity|]. split; [|reflexivity].
  intros fos H. apply parse_no_data_inv in H.
  destruct H as [H | H]; vm_compute in H; discriminate.
Qed.

(** C5 (amended): a string cell is mapped to the marker ["no data"] exactly
    when it is one of the five listed strings, ["no data"], ["No data"],
    ["NO DATA"], ["No Data"] and the empty string. *)
Theorem no_data_exactly_listed_variants (float_of_str : string -> option float) (s : string) :
  Notebook.parse_egfr float_of_str (VStr s) = Ok (VStr "no data")
  <-> In s Notebook.no_data_variants.
Proof.
  rewrite <- in_no_data_variants. split.
  - intros H. apply parse_no_data_inv in H.
    destruct H as [H | H]; [discriminate H | exact H].
  - intros H. unfold Notebook.parse_egfr. rewrite H. reflexivity.
Qed.

(** ** The loop body and the loop (lines 54-105) *)

Section LoopFacts.
Import Notebook.

Variable float_of_str : string -> option float.
Variable world : Type.
Variable backend : world -> patient_info -> value -> result object * world.

Local Abbreviation build := (build_patient_info float_of_str).
Local Abbreviation try_ := (try_block float_of_str world backend).
Local Abbreviation step := (process_row float_of_str world backend).
Local Abbreviation loop := (batch_loop float_of_str world backend).

Lemma getitem_found (r : row) (k : string) (v : value) :
  r !! k = Some v -> getitem r k = Ok v.
Proof. intros H. unfold getitem. now rewrite H. Qed.

Lemma getitem_missing (r : row) (k : string) :
  r !! k = None -> getitem r k = Raise (KeyError k).
Proof. intros H. unfold getitem. now rewrite H. Qed.

Lemma getitem_ok_inv (r : row) (k : string) (v : value) :
  getitem r k = Ok v -> r !! k = Some v.
Proof. unfold getitem. destruct (r !! k); [congruence | discriminate]. Qed.

Lemma except_block_found (r : row) (sid : value) :
  r !! "Study ID #" = Some sid -> except_block r = Ok (null_recommendation sid).
Proof. intros H. unfold except_block. now rewrite (getitem_found r _ sid H). Qed.

Lemma except_block_missing (r : row) :
  r !! "Study ID #" = None -> except_block r = Raise (KeyError "Study ID #").
Proof. intros H. unfold except_block. now rewrite (getitem_missing r _ H). Qed.

Lemma getitem_no_base (r : row) (k : string) : no_base (getitem r k).
Proof. intros b. unfold getitem. destruct (r !! k); discriminate. Qed.

Lemma subscript_no_base (c : object) (k : string) : no_base (subscript c k).
Proof.
  intros b. unfold subscript. destruct c as [d|]; [|discriminate].
  destruct (d !! k); discriminate.
Qed.

Lemma parse_egfr_no_base (v : value) : no_base (parse_egfr float_of_str v).
Proof.
  intros b. unfold parse_egfr.
  destruct (isna v || in_strings v no_data_variants); [discriminate|].
  destruct (is_gt90 v); [discriminate|].
  unfold py_float. destruct v as [|s|n|f]; try discriminate.
  - destruct (float_of_str s); discriminate.
  - destruct (PrimFloat.is_infinity (float_of_Z n)); discriminate.
Qed.

(** Reading the row and parsing the eGFR only raise [Exception]s. *)
Lemma build_no_base (r : row) : no_base (build r).
Proof.
  unfold build_patient_info.
  apply bind_no_base; [apply parse_egfr_no_base | intros egfr].
  repeat (apply bind_no_base; [apply getitem_no_base | intros ?]).
  discriminate.
Qed.

Lemma store_results_no_base (r : row) (c : object) : no_base (store_results r c).
Proof.
  unfold store_results.
  apply bind_no_base; [apply getitem_no_base | intros sid].
  repeat (apply bind_no_base; [apply subscript_no_base | intros ?]).
  discriminate.
Qed.

(** Without a study identifier the dict literal cannot be built: the [try]
    block is left before the backend is called. *)
Lemma try_block_missing_study_id (w : world) (r : row) :
  r !! "Study ID #" = None -> exists e, try_ w r = (Raise e, w).
Proof.
  intros H. unfold try_block.
  assert (Hb : exists e, build r = Raise e).
  { unfold build_patient_info.
    destruct (parse_egfr float_of_str _) as [egfr | e | b] eqn:P; step_bind.
    - rewrite (getitem_missing r _ H). step_bind. eauto.
    - eauto.
    - destruct (parse_egfr_no_base _ b P). }
  destruct Hb as [e ->]. eauto.
Qed.

Lemma process_row_missing_study_id (w : world) (r : row) :
  r !! "Study ID #" = None -> step w r = (Raise (KeyError "Study ID #"), w).
Proof.
  intros H. unfold process_row.
  destruct (try_block_missing_study_id w r H) as [e ->].
  now rewrite except_block_missing.
Qed.

Lemma store_results_study_id (r : row) (c : object) (rec : recommendation) :
  store_results r c = Ok rec -> r !! "Study ID #" = Some (Study_ID rec).
Proof.
  unfold store_results. intros H.
  apply bind_ok_inv in H. destruct H as (sid & Hsid & H).
  apply getitem_ok_inv in Hsid.
  repeat (apply bind_ok_inv in H; destruct H as (? & _ & H)).
  now injection H as <-.
Qed.

(** The three ways out of the [try] block once [patient_info] is built. *)
Lemma try_block_built (w : world) (r : row) (info : patient_info) (e : value) :
  build r = Ok (info, e) ->
  try_ w r = match backend w info e with
             | (Raise ex, w') => (Raise ex, w')
             | (RaiseBase b, w') => (RaiseBase b, w')
             | (Ok completions, w') => (store_results r completions, w')
             end.
Proof. intros H. unfold try_block. now rewrite H. Qed.

(** An exception that is not an [Exception] leaves the [try] block only from
    the backend call. *)
Lemma try_block_base_inv (w w' : world) (r : row) (b : base_exn) :
  try_ w r = (RaiseBase b, w') ->
  exists info e, build r = Ok (info, e) /\ backend w info e = (RaiseBase b, w').
Proof.
  unfold try_block. pose proof (build_no_base r) as Hb.
  destruct (build r) as [[info e] | ex | x]; [|discriminate|destruct (Hb x); reflexivity].
  destruct (backend w info e) as [[c | ex | x] w1] eqn:B.
  - intros [= H _]. destruct (store_results_no_base r c b H).
  - discriminate.
  - intros [= -> ->]. eauto.
Qed.

(** A dict appended by an iteration carries the study identifier of the row;
    it is the one the [try] block built or the all-null one of the handler. *)
Lemma process_row_ok_inv (w w' : world) (r : row) (rec : recommendation) :
  step w r = (Ok rec, w') ->
  r !! "Study ID #" = Some (Study_ID rec)
  /\ (try_ w r = (Ok rec, w')
      \/ exists e, try_ w r = (Raise e, w')
                   /\ rec = null_recommendation (Study_ID rec)).
Proof.
  unfold process_row.
  destruct (try_ w r) as [[rec0 | e | b] w0] eqn:E; [| |discriminate].
  - intros [= -> ->]. split; [|now left].
    unfold try_block in E.
    destruct (build r) as [[info egfr]| |]; [|discriminate|discriminate].
    destruct (backend w info egfr) as [[c| |] w'']; [|discriminate|discriminate].
    injection E as E _. now apply store_results_study_id in E.
  - unfold except_block, getitem.
    destruct (r !! "Study ID #") as [sid|]; [|discriminate].
    rewrite bind_ok. intros [= <- <-]. split; [reflexivity|]. right. eauto.
Qed.

(** An [Exception] leaves an iteration only as the handler's [KeyError], for
    a row without study identifier, before any backend call. *)
Lemma process_row_raise_inv (w w' : world) (r : row) (e : exn) :
  step w r = (Raise e, w') ->
  e = KeyError "Study ID #" /\ r !! "Study ID #" = None /\ w' = w.
Proof.
  intros H. destruct (r !! "Study ID #") as [sid|] eqn:Hsid.
  - exfalso. unfold process_row in H.
    destruct (try_ w r) as [[rec0 | e0 | b] w0]; [discriminate| |discriminate].
    rewrite (except_block_found r sid Hsid) in H. discriminate.
  - rewrite (process_row_missing_study_id w r Hsid) in H.
    injection H as <- <-. auto.
Qed.

(** An exception that is not an [Exception] leaves an iteration only from
    the backend call. *)
Lemma process_row_base_inv (w w' : world) (r : row) (b : base_exn) :
  step w r = (RaiseBase b, w') ->
  exists info e, build r = Ok (info, e) /\ backend w info e = (RaiseBase b, w').
Proof.
  unfold process_row.
  destruct (try_ w r) as [[rec0 | e0 | x] w0] eqn:E.
  - discriminate.
  - unfold except_block. intros [= H _]. exfalso. revert H.
    apply bind_no_base; [apply getitem_no_base | discriminate].
  - intros [= -> ->]. now apply try_block_base_inv.
Qed.




(** The loop extends [results] by one dict for each row it gets through, in
    row order; when it ends normally it got through every row. *)
Lemma batch_loop_prefix (rows : list row) :
  forall w acc res st w',
    loop w acc rows = (res, st, w') ->
    exists recs,
      res = acc ++ recs
      /\ Forall2 (fun (r : row) rec =>
                    r !! "Study ID #" = Some (Study_ID rec)
                    /\ exists w1 w2, step w1 r = (Ok rec, w2))
           (firstn (length recs) rows) recs
      /\ (length recs <= length rows)%nat
      /\ (st = None -> length recs = length rows).
Proof.
  induction rows as [|r rest IH]; intros w acc res st w'; simpl.
  - intros [= <- <- _]. exists []. rewrite app_nil_r.
    split; [reflexivity|]. split; [constructor|]. split; [simpl; lia | reflexivity].
  - destruct (step w r) as [[rec | e | b] w1] eqn:E.
    + intros H. destruct (IH _ _ _ _ _ H) as (recs & -> & HF & Hle & Hst).
      exists (rec :: recs). rewrite <- app_assoc. split; [reflexivity|].
      simpl. split; [|split; [lia | intros Hn; now rewrite Hst]].
      constructor; [|exact HF].
      split; [exact (proj1 (process_row_ok_inv w w1 r rec E)) | eauto].
    + intros [= <- <- _]. exists []. rewrite app_nil_r.
      split; [reflexivity|]. split; [constructor|].
      split; [simpl; lia | discriminate].
    + intros [= <- <- _]. exists []. rewrite app_nil_r.
      split; [reflexivity|]. split; [constructor|].
      split; [simpl; lia | discriminate].
Qed.

(** The loop stops at the first row that has no study identifier. *)
Lemma batch_loop_abort (r : row) (rest : list row) (w : world) (acc : list recommendation) :
  r !! "Study ID #" = None ->
  loop w acc (r :: rest) = (acc, Some (Exception (KeyError "Study ID #")), w).
Proof. intros H. simpl. now rewrite (process_row_missing_study_id w r H). Qed.

Lemma get_insert_ne (r : row) (k k' : string) (v : value) :
  k <> k' -> get (<[k := v]> r) k' = get r k'.
Proof. intros H. unfold get. now rewrite lookup_insert_ne. Qed.

Lemma getitem_insert_ne (r : row) (k k' : string) (v : value) :
  k <> k' -> getitem (<[k := v]> r) k' = getitem r k'.
Proof. intros H. unfold getitem. now rewrite lookup_insert_ne. Qed.

Lemma getitem_insert_eq (r : row) (k : string) (v : value) :
  getitem (<[k := v]> r) k = Ok v.
Proof. unfold getitem. now rewrite lookup_insert_eq. Qed.

(** The location cell goes into [patient_info] as it is: replacing it by any
    other value changes nothing but that entry. *)
Lemma build_patient_info_location (r : row) (info : patient_info) (e loc : value) :
  build r = Ok (info, e) ->
  build (<["Location [IP, ER, OP]" := loc]> r) = Ok (set_location info loc, e).
Proof.
  unfold build_patient_info. intros H.
  rewrite get_insert_ne by discriminate.
  rewrite (getitem_insert_ne r _ "Study ID #") by discriminate.
  rewrite (getitem_insert_ne r _ "Age") by discriminate.
  rewrite (getitem_insert_ne r _ "Sex") by discriminate.
  rewrite (getitem_insert_ne r _ "CT Exam Requested") by discriminate.
  rewrite (getitem_insert_ne r _ "Clinical Information/Reason for Scan")
    by discriminate.
  rewrite (getitem_insert_ne r _
             "Previous adverse reaction to contrast (if YES, what type)")
    by discriminate.
  rewrite (getitem_insert_ne r _ "Creatinine (umol/L)") by discriminate.
  rewrite getitem_insert_eq.
  apply bind_ok_inv in H. destruct H as (egfr & -> & H). step_bind.
  apply bind_ok_inv in H. destruct H as (sid & -> & H). step_bind.
  apply bind_ok_inv in H. destruct H as (loc0 & _ & H).
  repeat (apply bind_ok_inv in H; destruct H as (? & -> & H); step_bind).
  now injection H as <- <-.
Qed.

End LoopFacts.

(** ** The batch as a whole *)

Section BatchProperties.
Import Notebook Samples.

Lemma fixed_backend_populated :
  answers_populated (fixed_backend (Ok (ODict sample_completions))).
Proof.
  intros w info egfr d w' k H Hin. unfold fixed_backend in H.
  injection H as <- _. unfold decision_keys in Hin. simpl in Hin.
  repeat (destruct Hin as [<- | Hin]; [vm_compute; discriminate |]).
  destruct Hin.
Qed.

(** C3 (failing input): a table read without a "Study ID #" column.  The
    first row raises [KeyError] inside [try]; the handler reads the same
    column, raises again, and the loop ends there: no all-null record is
    appended and the second row is never processed. *)
Theorem missing_study_id_aborts_batch
  (float_of_str : string -> option float) (world : Type)
  (backend : world -> patient_info -> value -> result object * world) (w : world) :
  process_batch float_of_str world backend w
    [row_without_study_id (VStr "ER") (VFloat 45);
     row_without_study_id (VStr "OP") (VStr ">90")]
  = ([], Some (Exception (KeyError "Study ID #")), w).
Proof. apply batch_loop_abort. reflexivity. Qed.

(** C10 (failing input): on a table of three rows read without a
    "Study ID #" column the loop leaves [results] empty: three rows, no
    record. *)
Theorem missing_study_id_leaves_rows_without_record
  (float_of_str : string -> option float) (world : Type)
  (backend : world -> patient_info -> value -> result object * world) (w : world) :
  let rows := [row_without_study_id (VStr "IP") (VStr "no data");
               row_without_study_id (VStr "ER") (VFloat 45);
               row_without_study_id (VStr "OP") (VFloat 72)] in
  length rows = 3%nat
  /\ length (fst (fst (process_batch float_of_str world backend w rows))) = 0%nat.
Proof.
  split; [reflexivity|]. unfold process_batch.
  rewrite batch_loop_abort; reflexivity.
Qed.


(** C8 (counterexample): a row whose location cell is ["XX"], which is none
    of the three location codes.  Whatever the backend, [patient_info] is
    built with that location and the [try] block goes on to call the backend
    with it: the row is not rejected. *)
Lemma location_validation_counterexample :
  Engine.location_of_text "XX" = None
  /\ forall (float_of_str : string -> option float) (world : Type)
       (backend : world -> patient_info -> value -> result object * world)
       (w : world),
      exists info,
        pi_Location info = VStr "XX"
        /\ build_patient_info float_of_str
             (sample_row (VStr "S1") (VStr "XX") (VFloat 45))
           = Ok (info, VFloat 45)
        /\ try_block float_of_str world backend w
             (sample_row (VStr "S1") (VStr "XX") (VFloat 45))
           = match backend w info (VFloat 45) with
             | (Raise ex, w') => (Raise ex, w')
             | (RaiseBase b, w') => (RaiseBase b, w')
             | (Ok completions, w') =>
                 (store_results (sample_row (VStr "S1") (VStr "XX") (VFloat 45))
                    completions, w')
             end.
Proof.
  split; [reflexivity|]. intros float_of_str world backend w.
  exists {| pi_Study_ID := VStr "S1"; pi_Location := VStr "XX";
            pi_Age := VInt 61; pi_Sex := VStr "F";
            pi_CT_Exam := VStr "CT abdomen pelvis";
            pi_Clinical_Info := VStr "abdominal pain";
            pi_Prior_Reaction := VStr "No"; pi_eGFR := VFloat 45;
            pi_Creatinine := VFloat 80 |}.
  split; [reflexivity|]. split; reflexivity.
Qed.

(** C8 (amended): the loop does not validate the location.  Whatever value
    stands in the location cell of a row whose [patient_info] can be built,
    [patient_info] is built just the same with that value under ['Location'],
    and the backend is called with it. *)
Theorem location_passed_unvalidated
  (float_of_str : string -> option float) (world : Type)
  (backend : world -> patient_info -> value -> result object * world)
  (w : world) (r : row) (info : patient_info) (e loc : value) :
  build_patient_info float_of_str r = Ok (info, e) ->
  build_patient_info float_of_str (<["Location [IP, ER, OP]" := loc]> r)
    = Ok (set_location info loc, e)
  /\ try_block float_of_str world backend w (<["Location [IP, ER, OP]" := loc]> r)
     = match backend w (set_location info loc) e with
       | (Raise ex, w') => (Raise ex, w')
       | (RaiseBase b, w') => (RaiseBase b, w')
       | (Ok completions, w') =>
           (store_results (<["Location [IP, ER, OP]" := loc]> r) completions, w')
       end.
Proof.
  intros H.
  pose proof (build_patient_info_location float_of_str r info e loc H) as H'.
  split; [exact H'|]. now apply try_block_built.
Qed.

Lemma location_passed_unvalidated_witness :
  exists info,
    build_patient_info float_rejects
      (sample_row (VStr "S1") (VStr "ER") (VFloat 45)) = Ok (info, VFloat 45)
    /\ build_patient_info float_rejects
         (<["Location [IP, ER, OP]" := VStr "XX"]>
            (sample_row (VStr "S1") (VStr "ER") (VFloat 45)))
       = Ok (set_location info (VStr "XX"), VFloat 45).
Proof.
  eexists. split; [reflexivity|].
  apply (location_passed_unvalidated float_rejects nat probe_backend 0%nat
           (sample_row (VStr "S1") (VStr "ER") (VFloat 45)) _ (VFloat 45)
           (VStr "XX")).
  reflexivity.
Defined.

End BatchProperties.

(** ** Further properties of the loop *)

Section LoopProperties.
Import Notebook Samples.

Variable float_of_str : string -> option float.
Variable world : Type.
Variable backend : world -> patient_info -> value -> result object * world.

(** X1: an [Exception] raised in the [try] block of a row that has a study
    identifier is caught: the handler appends the all-null dict carrying that
    identifier and the loop goes on with the remaining rows. *)
Theorem failed_row_is_isolated
  (w w' : world) (r : row) (sid : value) (e : exn)
  (rest : list row) (acc : list recommendation) :
  r !! "Study ID #" = Some sid ->
  try_block float_of_str world backend w r = (Raise e, w') ->
  batch_loop float_of_str world backend w acc (r :: rest)
  = batch_loop float_of_str world backend w' (acc ++ [null_recommendation sid]) rest.
Proof.
  intros Hsid Htry. simpl. unfold process_row. rewrite Htry.
  now rewrite (except_block_found r sid Hsid).
Qed.

(** X3: a missing eGFR, be it an absent column or a NaN cell, becomes the marker
    ["no data"] and raises nothing. *)
Theorem missing_egfr_is_no_data (r : row) :
  (r !! "eGFR (mL/min)" = None
   \/ exists f, r !! "eGFR (mL/min)" = Some (VFloat f) /\ PrimFloat.is_nan f = true) ->
  parse_egfr float_of_str (get r "eGFR (mL/min)") = Ok (VStr "no data").
Proof.
  intros H. apply parse_missing. unfold get.
  destruct H as [-> | (f & -> & Hf)]; [reflexivity | exact Hf].
Qed.


End LoopProperties.

Lemma failed_row_is_isolated_witness :
  Notebook.process_batch Samples.float_rejects unit
    (Samples.fixed_backend (Ok (Notebook.ODict Samples.sample_completions))) tt
    [Samples.sample_row (VStr "S1") (VStr "ER") (VStr "<30");
     Samples.sample_row (VStr "S2") (VStr "ER") (VFloat 45)]
  = Notebook.batch_loop Samples.float_rejects unit
      (Samples.fixed_backend (Ok (Notebook.ODict Samples.sample_completions))) tt
      [Notebook.null_recommendation (VStr "S1")]
      [Samples.sample_row (VStr "S2") (VStr "ER") (VFloat 45)].
Proof.
  apply (failed_row_is_isolated Samples.float_rejects unit _ tt tt
           (Samples.sample_row (VStr "S1") (VStr "ER") (VStr "<30"))
           (VStr "S1") ValueError); reflexivity.
Defined.

Lemma missing_egfr_is_no_data_witness :
  Notebook.parse_egfr Samples.float_rejects
    (Notebook.get (delete "eGFR (mL/min)"
                     (Samples.sample_row (VStr "S1") (VStr "ER") VNone))
       "eGFR (mL/min)")
  = Ok (VStr "no data").
Proof.
  apply (missing_egfr_is_no_data Samples.float_rejects).
  left. reflexivity.
Defined.


(** ** The decision rules *)

Section EngineProperties.
Import Engine Samples.

Variable tbl : RuleTable.

Lemma priority_in_range (r : PatientRecord) : 1 <= priority_of tbl r <= 4.
Proof.
  unfold priority_of.
  destruct (location r);
    repeat match goal with |- context [if ?b then _ else _] => destruct b end;
    lia.
Qed.

(** The two end-to-end examples of the spec's section 8, on the sample table. *)
Example end_to_end_renal_colic :
  Engine.decide sample_table
    (sample_record EmergencyRoom "renal colic workup" (Numeric 15))
  = {| priority := 1; protocol := Specialized "renal colic protocol";
       iv_contrast := CMinus; oral_contrast := NoOral |}.
Proof. reflexivity. Qed.

Example end_to_end_staging :
  Engine.decide sample_table
    (sample_record Outpatient "abdomen pelvis, malignancy staging" NoData)
  = {| priority := 3; protocol := AP; iv_contrast := CPlus;
       oral_contrast := NoOral |}.
Proof. reflexivity. Qed.

End EngineProperties.

(** C1: a record whose eGFR is a number below 30 and whose exam is not a
    renal-colic workup gets C-, whether or not mass characterisation is asked
    for. *)
Theorem low_egfr_forces_c_minus
  (tbl : Engine.RuleTable) (r : Engine.PatientRecord) (v : float) :
  Engine.egfr r = Engine.Numeric v ->
  PrimFloat.ltb v 30 = true ->
  Engine.signal (Engine.renal_colic tbl) r = false ->
  Engine.iv_contrast (Engine.decide tbl r) = Engine.CMinus.
Proof.
  intros He Hv Hc. simpl. unfold Engine.iv_contrast_of.
  rewrite Hc, He. simpl. now rewrite Hv.
Qed.

Lemma low_egfr_forces_c_minus_witness :
  Engine.signal (Engine.mass_characterization Samples.sample_table)
    (Samples.sample_record Engine.Outpatient "renal mass characterization"
       (Engine.Numeric 15)) = true
  /\ Engine.iv_contrast
       (Engine.decide Samples.sample_table
          (Samples.sample_record Engine.Outpatient "renal mass characterization"
             (Engine.Numeric 15))) = Engine.CMinus.
Proof.
  split; [reflexivity|].
  apply (low_egfr_forces_c_minus Samples.sample_table
           (Samples.sample_record Engine.Outpatient "renal mass characterization"
              (Engine.Numeric 15)) 15); reflexivity.
Defined.

(** C6: a record whose eGFR is NoData is decided, with all four fields
    populated and a priority from 1 to 4; its IV contrast is C- only when the
    exam is a renal-colic workup, and is what it would be with an eGFR
    above the threshold. *)
Theorem no_data_does_not_force_c_minus
  (tbl : Engine.RuleTable) (r : Engine.PatientRecord) :
  Engine.egfr r = Engine.NoData ->
  Engine.populated (Engine.recommend tbl r)
  /\ 1 <= Engine.priority (Engine.decide tbl r) <= 4
  /\ (Engine.iv_contrast (Engine.decide tbl r) = Engine.CMinus
      <-> Engine.signal (Engine.renal_colic tbl) r = true)
  /\ Engine.iv_contrast (Engine.decide tbl r)
     = Engine.iv_contrast
         (Engine.decide tbl (Engine.with_egfr r Engine.GreaterThan90)).
Proof.
  intros He. split; [|split; [|split]].
  - repeat split; simpl; eauto.
  - apply priority_in_range.
  - simpl. unfold Engine.iv_contrast_of. rewrite He. simpl.
    destruct (Engine.signal (Engine.renal_colic tbl) r); [tauto|].
    destruct (Engine.signal (Engine.mass_characterization tbl) r);
      split; discriminate.
  - simpl. unfold Engine.iv_contrast_of, Engine.signal. rewrite He. reflexivity.
Qed.

Lemma no_data_does_not_force_c_minus_witness :
  Engine.iv_contrast
    (Engine.decide Samples.sample_table
       (Samples.sample_record Engine.Outpatient
          "abdomen pelvis, malignancy staging" Engine.NoData))
  = Engine.iv_contrast
      (Engine.decide Samples.sample_table
         (Engine.with_egfr
            (Samples.sample_record Engine.Outpatient
               "abdomen pelvis, malignancy staging" Engine.NoData)
            Engine.GreaterThan90)).
Proof.
  apply (no_data_does_not_force_c_minus Samples.sample_table
           (Samples.sample_record Engine.Outpatient
              "abdomen pelvis, malignancy staging" Engine.NoData)).
  reflexivity.
Defined.

(** C7: a record located in the emergency room gets priority 1, whatever its
    other fields and whatever the keyword table. *)
Theorem emergency_room_priority_1
  (tbl : Engine.RuleTable) (r : Engine.PatientRecord) :
  Engine.location r = Engine.EmergencyRoom ->
  Engine.priority (Engine.decide tbl r) = 1.
Proof. intros H. simpl. unfold Engine.priority_of. now rewrite H. Qed.

Lemma emergency_room_priority_1_witness :
  Engine.priority
    (Engine.decide Samples.sample_table
       (Samples.sample_record Engine.EmergencyRoom "renal colic workup"
          (Engine.Numeric 15))) = 1.
Proof.
  apply (emergency_room_priority_1 Samples.sample_table
           (Samples.sample_record Engine.EmergencyRoom "renal colic workup"
              (Engine.Numeric 15))).
  reflexivity.
Defined.

(** ** Whitespace, headers and the shape of a parsed eGFR *)

Section StripFacts.

(** Every character of [s] is whitespace. *)
Local Abbreviation blank s := (forallb is_space (list_ascii_of_string s) = true).

Lemma lstrip_empty_iff (s : string) : lstrip s = "" <-> blank s.
Proof.
  induction s as [|c s IH]; simpl; [tauto|].
  destruct (is_space c); simpl; [exact IH|]. split; discriminate.
Qed.

Lemma lstrip_head (s : string) :
  lstrip s = "" \/ exists c t, lstrip s = String c t /\ is_space c = false.
Proof.
  induction s as [|c s IH]; simpl; [now left|].
  destruct (is_space c) eqn:E; [exact IH|]. right. eauto.
Qed.

Lemma rstrip_empty_iff (s : string) : rstrip s = "" <-> blank s.
Proof.
  induction s as [|c s IH]; simpl; [tauto|].
  destruct (rstrip s) eqn:R.
  - destruct (is_space c); simpl; [|split; discriminate].
    split; intros _; [now apply IH | reflexivity].
  - split; [discriminate|]. intros H. apply andb_true_iff in H.
    destruct H as [_ H]. apply IH in H. discriminate.
Qed.

Lemma strip_empty_iff (s : string) : strip s = "" <-> blank s.
Proof.
  unfold strip. rewrite rstrip_empty_iff. split.
  - intros H. destruct (lstrip_head s) as [E | (c & t & E & Hc)].
    + now apply lstrip_empty_iff.
    + rewrite E in H. simpl in H. rewrite Hc in H. discriminate.
  - intros H. apply lstrip_empty_iff in H. now rewrite H.
Qed.

Lemma lstrip_app_blank (pre t : string) : blank pre -> lstrip (pre ++ t) = lstrip t.
Proof.
  induction pre as [|c pre IH]; simpl; [reflexivity|].
  intros H. apply andb_true_iff in H. destruct H as [-> H]. now apply IH.
Qed.

Lemma rstrip_app_blank (t post : string) : blank post -> rstrip (t ++ post) = rstrip t.
Proof.
  intros H. induction t as [|c t IH]; simpl.
  - now apply rstrip_empty_iff.
  - now rewrite IH.
Qed.

End StripFacts.

(** X5: what the eGFR variable can hold after lines 57-70.  It is the marker
    ["no data"], and then the cell was missing or one of the listed strings;
    or the integer 90, and then the cell was a string that strips to [">90"];
    or the float that [float()] made of the cell.  It is never [None], another
    string or another integer. *)
Theorem parse_egfr_cases
  (float_of_str : string -> option float) (v x : value) :
  Notebook.parse_egfr float_of_str v = Ok x ->
  (x = VStr "no data"
   /\ (isna v = true \/ exists s, v = VStr s /\ In s Notebook.no_data_variants))
  \/ (x = VInt 90 /\ exists s, v = VStr s /\ strip s = ">90")
  \/ (exists f, x = VFloat f /\ Notebook.py_float float_of_str v = Ok f).
Proof.
  unfold Notebook.parse_egfr.
  destruct (isna v) eqn:Ena.
  - rewrite orb_true_l. intros [= <-]. left. auto.
  - rewrite orb_false_l.
    destruct (in_strings v Notebook.no_data_variants) eqn:Ein.
    + intros [= <-]. left. split; [reflexivity|]. right.
      destruct v as [|s|n|f]; try (vm_compute in Ein; discriminate).
      exists s. split; [reflexivity|]. now apply in_no_data_variants.
    + destruct (Notebook.is_gt90 v) eqn:Egt.
      * intros [= <-]. right. left. split; [reflexivity|].
        destruct v as [|s|n|f]; try discriminate.
        exists s. split; [reflexivity|]. simpl in Egt. now apply String.eqb_eq.
      * destruct (Notebook.py_float float_of_str v) as [f|e|b];
          rewrite ?bind_ok, ?bind_raise, ?bind_raise_base;
          [|discriminate|discriminate].
        intros [= <-]. right. right. eauto.
Qed.

Lemma parse_egfr_cases_witness :
  exists s, VStr " >90" = VStr s /\ strip s = ">90".
Proof.
  destruct (parse_egfr_cases Samples.float_rejects (VStr " >90") (VInt 90))
    as [[H _] | [[_ H] | (f & H & _)]];
    [reflexivity | discriminate H | exact H | discriminate H].
Defined.

(** X6: whitespace around [">90"] of any kind and length (spaces, tabs, line
    ends, no-break spaces) is ignored: the cell parses to the integer 90. *)
Theorem gt90_with_surrounding_whitespace
  (float_of_str : string -> option float) (pre post : string) :
  forallb is_space (list_ascii_of_string pre) = true ->
  forallb is_space (list_ascii_of_string post) = true ->
  Notebook.parse_egfr float_of_str (VStr (pre ++ ">90" ++ post)) = Ok (VInt 90).
Proof.
  intros Hpre Hpost. apply parse_gt90. unfold strip.
  rewrite (lstrip_app_blank pre _ Hpre).
  change (lstrip (">90" ++ post)) with (">90" ++ post)%string.
  now rewrite (rstrip_app_blank ">90" post Hpost).
Qed.

Lemma gt90_with_surrounding_whitespace_witness :
  Notebook.parse_egfr Samples.float_rejects
    (VStr (String (ascii_of_N 9) " " ++ ">90" ++ String (ascii_of_N 160) ""))
  = Ok (VInt 90).
Proof.
  apply (gt90_with_surrounding_whitespace Samples.float_rejects
           (String (ascii_of_N 9) " ") (String (ascii_of_N 160) ""));
    reflexivity.
Defined.

(** X7: the [usecols] callable of [read_csv], as a function of the name it
    is called with, refuses a column exactly when that name consists of
    whitespace only; it accepts every name that starts with ["Unnamed: "],
    the names an empty header goes by when the callable is asked. *)
Theorem usecols_drops_blank_headers (column : string) :
  (Notebook.usecols column = false
   <-> forallb is_space (list_ascii_of_string column) = true)
  /\ forall suffix : string, Notebook.usecols ("Unnamed: " ++ suffix) = true.
Proof.
  split.
  - unfold Notebook.usecols. rewrite <- strip_empty_iff.
    rewrite negb_false_iff. apply String.eqb_eq.
  - intros suffix. unfold Notebook.usecols.
    destruct (String.eqb_spec (strip ("Unnamed: " ++ suffix)) "") as [H|H];
      [|reflexivity].
    apply strip_empty_iff in H. discriminate H.
Qed.

(** ** What becomes of a row *)

Section RowOutcomes.
Import Notebook.

Variable float_of_str : string -> option float.
Variable world : Type.
Variable backend : world -> patient_info -> value -> result object * world.

Local Abbreviation build := (build_patient_info float_of_str).
Local Abbreviation try_ := (try_block float_of_str world backend).
Local Abbreviation step := (process_row float_of_str world backend).

Lemma parse_other_string (s : string) :
  ~ In s no_data_variants -> strip s <> ">90" ->
  parse_egfr float_of_str (VStr s)
  = match float_of_str s with
    | Some f => Ok (VFloat f)
    | None => Raise ValueError
    end.
Proof.
  intros Hv Hs. unfold parse_egfr.
  destruct (in_strings (VStr s) no_data_variants) eqn:E.
  - apply in_no_data_variants in E. contradiction.
  - simpl. destruct (String.eqb_spec (strip s) ">90") as [H|_]; [contradiction|].
    destruct (float_of_str s); reflexivity.
Qed.

Lemma build_patient_info_inv (r : row) (info : patient_info) (e : value) :
  build r = Ok (info, e) ->
  parse_egfr float_of_str (get r "eGFR (mL/min)") = Ok e
  /\ pi_eGFR info = e
  /\ r !! "Study ID #" = Some (pi_Study_ID info)
  /\ r !! "Location [IP, ER, OP]" = Some (pi_Location info)
  /\ r !! "Age" = Some (pi_Age info)
  /\ r !! "Sex" = Some (pi_Sex info)
  /\ r !! "CT Exam Requested" = Some (pi_CT_Exam info)
  /\ r !! "Clinical Information/Reason for Scan" = Some (pi_Clinical_Info info)
  /\ r !! "Previous adverse reaction to contrast (if YES, what type)"
     = Some (pi_Prior_Reaction info)
  /\ r !! "Creatinine (umol/L)" = Some (pi_Creatinine info).
Proof.
  unfold build_patient_info. intros H.
  apply bind_ok_inv in H. destruct H as (egfr & He & H).
  apply bind_ok_inv in H. destruct H as (v1 & H1 & H).
  apply bind_ok_inv in H. destruct H as (v2 & H2 & H).
  apply bind_ok_inv in H. destruct H as (v3 & H3 & H).
  apply bind_ok_inv in H. destruct H as (v4 & H4 & H).
  apply bind_ok_inv in H. destruct H as (v5 & H5 & H).
  apply bind_ok_inv in H. destruct H as (v6 & H6 & H).
  apply bind_ok_inv in H. destruct H as (v7 & H7 & H).
  apply bind_ok_inv in H. destruct H as (v8 & H8 & H).
  injection H as <- <-. simpl.
  repeat split; try assumption; try reflexivity; now apply getitem_ok_inv.
Qed.

Lemma build_patient_info_ok (r : row) (e v1 v2 v3 v4 v5 v6 v7 v8 : value) :
  parse_egfr float_of_str (get r "eGFR (mL/min)") = Ok e ->
  r !! "Study ID #" = Some v1 ->
  r !! "Location [IP, ER, OP]" = Some v2 ->
  r !! "Age" = Some v3 ->
  r !! "Sex" = Some v4 ->
  r !! "CT Exam Requested" = Some v5 ->
  r !! "Clinical Information/Reason for Scan" = Some v6 ->
  r !! "Previous adverse reaction to contrast (if YES, what type)" = Some v7 ->
  r !! "Creatinine (umol/L)" = Some v8 ->
  build r = Ok ({| pi_Study_ID := v1; pi_Location := v2; pi_Age := v3;
                   pi_Sex := v4; pi_CT_Exam := v5; pi_Clinical_Info := v6;
                   pi_Prior_Reaction := v7; pi_eGFR := e;
                   pi_Creatinine := v8 |}, e).
Proof.
  intros He H1 H2 H3 H4 H5 H6 H7 H8. unfold build_patient_info.
  rewrite He, (getitem_found r _ _ H1), (getitem_found r _ _ H2),
    (getitem_found r _ _ H3), (getitem_found r _ _ H4),
    (getitem_found r _ _ H5), (getitem_found r _ _ H6),
    (getitem_found r _ _ H7), (getitem_found r _ _ H8).
  reflexivity.
Qed.

(** A row that lacks one of the columns read with [row[...]] never gets its
    [patient_info]. *)
Lemma build_raises_of_missing (r : row) (k : string) :
  In k patient_info_columns -> r !! k = None -> exists e, build r = Raise e.
Proof.
  intros Hin Hk.
  destruct (build r) as [[info e]|e|b] eqn:E;
    [|eauto|destruct (build_no_base float_of_str r b E)].
  apply build_patient_info_inv in E.
  destruct E as (_ & _ & H1 & H2 & H3 & H4 & H5 & H6 & H7 & H8).
  unfold patient_info_columns in Hin. simpl in Hin.
  repeat (destruct Hin as [<- | Hin]; [congruence|]). destruct Hin.
Qed.

(** When [patient_info] cannot be built the handler answers for the row and
    the backend is left alone. *)
Lemma row_rejected_before_backend (w : world) (r : row) (sid : value) (e : exn) :
  r !! "Study ID #" = Some sid -> build r = Raise e ->
  step w r = (Ok (null_recommendation sid), w).
Proof.
  intros Hsid Hb. unfold process_row, try_block. rewrite Hb.
  now rewrite (except_block_found r sid Hsid).
Qed.

End RowOutcomes.

Section RowProperties.
Import Notebook.

Variable float_of_str : string -> option float.
Variable world : Type.
Variable backend : world -> patient_info -> value -> result object * world.

Local Abbreviation build := (build_patient_info float_of_str).
Local Abbreviation step := (process_row float_of_str world backend).

(** X8: a row that has a study identifier but lacks another column read with
    [row[...]] gets the all-null record, and the backend is not called for it:
    its state is the one before the row. *)
Theorem missing_column_gives_null_record
  (w : world) (r : row) (sid : value) (k : string) :
  r !! "Study ID #" = Some sid ->
  In k patient_info_columns -> r !! k = None ->
  step w r = (Ok (null_recommendation sid), w).
Proof.
  intros Hsid Hin Hk.
  destruct (build_raises_of_missing float_of_str r k Hin Hk) as [e He].
  exact (row_rejected_before_backend float_of_str world backend w r sid e Hsid He).
Qed.

(** X9: a row whose eGFR cell is a string that is no listed "no data"
    variant, does not strip to [">90"] and is refused by [float()] gets the
    all-null record, and the backend is not called for it. *)
Theorem unparseable_egfr_gives_null_record
  (w : world) (r : row) (sid : value) (s : string) :
  r !! "Study ID #" = Some sid ->
  r !! "eGFR (mL/min)" = Some (VStr s) ->
  ~ In s no_data_variants -> strip s <> ">90" -> float_of_str s = None ->
  step w r = (Ok (null_recommendation sid), w).
Proof.
  intros Hsid Hcell Hv Hs Hf.
  apply (row_rejected_before_backend float_of_str world backend w r sid ValueError Hsid).
  unfold build_patient_info, get. rewrite Hcell.
  rewrite (parse_other_string float_of_str s Hv Hs), Hf. reflexivity.
Qed.

(** X10: [patient_info] is built exactly when the eGFR cell parses and the
    eight other columns are there; it then holds the parsed eGFR, which is
    also the second argument of the backend, and every other cell as it was
    read, NaN cells included. *)
Theorem patient_info_built_iff (r : row) (info : patient_info) (e : value) :
  build r = Ok (info, e)
  <-> parse_egfr float_of_str (get r "eGFR (mL/min)") = Ok e
      /\ pi_eGFR info = e
      /\ r !! "Study ID #" = Some (pi_Study_ID info)
      /\ r !! "Location [IP, ER, OP]" = Some (pi_Location info)
      /\ r !! "Age" = Some (pi_Age info)
      /\ r !! "Sex" = Some (pi_Sex info)
      /\ r !! "CT Exam Requested" = Some (pi_CT_Exam info)
      /\ r !! "Clinical Information/Reason for Scan" = Some (pi_Clinical_Info info)
      /\ r !! "Previous adverse reaction to contrast (if YES, what type)"
         = Some (pi_Prior_Reaction info)
      /\ r !! "Creatinine (umol/L)" = Some (pi_Creatinine info).
Proof.
  split; [apply build_patient_info_inv|].
  intros (He & Hi & H1 & H2 & H3 & H4 & H5 & H6 & H7 & H8).
  rewrite (build_patient_info_ok float_of_str r e _ _ _ _ _ _ _ _
             He H1 H2 H3 H4 H5 H6 H7 H8).
  destruct info; simpl in *. now subst.
Qed.

(** X11: the backend is called for a row exactly when the row has the eight
    columns read with [row[...]] and its eGFR cell parses; the eGFR column
    itself may be absent. *)
Theorem row_reaches_backend_iff (r : row) :
  reaches_backend float_of_str r = true
  <-> (forall k, In k patient_info_columns -> is_Some (r !! k))
      /\ exists e, parse_egfr float_of_str (get r "eGFR (mL/min)") = Ok e.
Proof.
  unfold reaches_backend. split.
  - destruct (build r) as [[info e]|ex|b] eqn:E;
      [intros _|discriminate|discriminate].
    apply build_patient_info_inv in E.
    destruct E as (He & _ & H1 & H2 & H3 & H4 & H5 & H6 & H7 & H8).
    split; [|eauto]. intros k Hin. unfold patient_info_columns in Hin.
    simpl in Hin.
    repeat (destruct Hin as [<- | Hin]; [eauto|]). destruct Hin.
  - intros [Hcols [e He]].
    destruct (build r) as [[info e']|ex|b] eqn:E;
      [reflexivity| |destruct (build_no_base float_of_str r b E)].
    assert (Hk : forall k, In k patient_info_columns -> exists v, r !! k = Some v)
      by (intros k Hin; destruct (Hcols k Hin) as [v Hv]; eauto).
    unfold patient_info_columns in Hk. simpl in Hk.
    destruct (Hk "Study ID #") as [v1 H1]; [tauto|].
    destruct (Hk "Location [IP, ER, OP]") as [v2 H2]; [tauto|].
    destruct (Hk "Age") as [v3 H3]; [tauto|].
    destruct (Hk "Sex") as [v4 H4]; [tauto|].
    destruct (Hk "CT Exam Requested") as [v5 H5]; [tauto|].
    destruct (Hk "Clinical Information/Reason for Scan") as [v6 H6]; [tauto|].
    destruct (Hk "Previous adverse reaction to contrast (if YES, what type)")
      as [v7 H7]; [tauto|].
    destruct (Hk "Creatinine (umol/L)") as [v8 H8]; [tauto|].
    rewrite (build_patient_info_ok float_of_str r e _ _ _ _ _ _ _ _
               He H1 H2 H3 H4 H5 H6 H7 H8) in E.
    discriminate.
Qed.

(** X12: when the backend answers with a dict that has the four keys, the
    record appended for the row is the study identifier followed by the four
    values under those keys, unchanged. *)
Theorem successful_row_copies_answer
  (w w' : world) (r : row) (info : patient_info) (e : value)
  (d : gmap string value) (p q i o : value) :
  build r = Ok (info, e) ->
  backend w info e = (Ok (ODict d), w') ->
  d !! "priority" = Some p -> d !! "protocol" = Some q ->
  d !! "iv_contrast" = Some i -> d !! "oral_contrast" = Some o ->
  step w r = (Ok {| Study_ID := pi_Study_ID info; Priority := p; Protocol := q;
                    IV_Contrast := i; Oral_Contrast := o |}, w').
Proof.
  intros Hb Hcall Hp Hq Hi Ho.
  pose proof (build_patient_info_inv float_of_str r info e Hb)
    as (_ & _ & Hsid & _).
  unfold process_row, try_block. rewrite Hb, Hcall.
  unfold store_results, subscript.
  rewrite (getitem_found r _ _ Hsid), Hp, Hq, Hi, Ho. reflexivity.
Qed.

(** X13: when the backend raises an [Exception], answers with something that
    is not a dict, or answers with a dict that lacks one of the four keys,
    the record appended for the row is the all-null one: no field of a
    partial answer is kept.  The backend's new state is kept. *)
Theorem unusable_answer_gives_null_record
  (w w' : world) (r : row) (info : patient_info) (e : value)
  (answer : result object) :
  build r = Ok (info, e) ->
  backend w info e = (answer, w') ->
  ((exists ex, answer = Raise ex)
   \/ answer = Ok OOther
   \/ exists d k, answer = Ok (ODict d) /\ In k decision_keys /\ d !! k = None) ->
  step w r = (Ok (null_recommendation (pi_Study_ID info)), w').
Proof.
  intros Hb Hcall Hbad.
  pose proof (build_patient_info_inv float_of_str r info e Hb)
    as (_ & _ & Hsid & _).
  unfold process_row.
  rewrite (try_block_built float_of_str world backend w r info e Hb), Hcall.
  assert (Hs : (exists ex, answer = Raise ex)
               \/ exists c ex, answer = Ok c /\ store_results r c = Raise ex).
  { destruct Hbad as [H | [-> | (d & k & -> & Hin & Hk)]]; [now left| |]; right.
    - exists OOther. eexists. split; [reflexivity|]. unfold store_results.
      rewrite (getitem_found r _ _ Hsid). reflexivity.
    - exists (ODict d). unfold store_results, subscript.
      rewrite (getitem_found r _ _ Hsid), bind_ok.
      unfold decision_keys in Hin. simpl in Hin.
      destruct (d !! "priority") eqn:E1; [rewrite bind_ok | eauto].
      destruct (d !! "protocol") eqn:E2; [rewrite bind_ok | eauto].
      destruct (d !! "iv_contrast") eqn:E3; [rewrite bind_ok | eauto].
      destruct (d !! "oral_contrast") eqn:E4; [rewrite bind_ok | eauto].
      repeat (destruct Hin as [<- | Hin]; [congruence|]). destruct Hin. }
  destruct Hs as [[ex ->] | (c & ex & -> & Hs)]; cbn.
  - now rewrite (except_block_found r _ Hsid).
  - rewrite Hs. now rewrite (except_block_found r _ Hsid).
Qed.

End RowProperties.

(** ** The loop over a whole table *)

Section BatchStructure.
Import Notebook.

Variable float_of_str : string -> option float.
Variable world : Type.
Variable backend : world -> patient_info -> value -> result object * world.

Local Abbreviation build := (build_patient_info float_of_str).
Local Abbreviation step := (process_row float_of_str world backend).
Local Abbreviation loop := (batch_loop float_of_str world backend).
Local Abbreviation has_study_id := (fun r : row => is_Some (r !! "Study ID #")).

(** How the loop can be left: at a row that follows rows which all got their
    record, by the handler's [KeyError] when that row has no study
    identifier, or by an exception that is not an [Exception] from the
    backend call for that row. *)
Lemma batch_loop_left (rows : list row) :
  forall w acc res x w',
    loop w acc rows = (res, Some x, w') ->
    exists pre r post,
      rows = pre ++ r :: post
      /\ Forall has_study_id pre
      /\ length res = (length acc + length pre)%nat
      /\ ((x = Exception (KeyError "Study ID #") /\ r !! "Study ID #" = None)
          \/ exists b info e w1,
               x = BaseException b /\ build r = Ok (info, e)
               /\ backend w1 info e = (RaiseBase b, w')).
Proof.
  induction rows as [|r rest IH]; intros w acc res x w'; simpl.
  - discriminate.
  - destruct (step w r) as [[rec | e | b] w1] eqn:E.
    + intros H.
      destruct (IH _ _ _ _ _ H) as (pre & r' & post & -> & Hpre & Hlen & Hx).
      exists (r :: pre), r', post. split; [reflexivity|]. split.
      * constructor; [|exact Hpre].
        destruct (process_row_ok_inv float_of_str world backend w w1 r rec E)
          as [Hsid _]. eauto.
      * split; [|exact Hx]. rewrite Hlen, length_app. simpl. lia.
    + intros [= <- <- <-].
      destruct (process_row_raise_inv float_of_str world backend w w1 r e E)
        as (-> & Hsid & _).
      exists [], r, rest. split; [reflexivity|]. split; [constructor|].
      split; [simpl; lia | now left].
    + intros [= <- <- <-].
      destruct (process_row_base_inv float_of_str world backend w w1 r b E)
        as (info & e & Hb & Hcall).
      exists [], r, rest. split; [reflexivity|]. split; [constructor|].
      split; [simpl; lia|]. right. exists b, info, e, w. auto.
Qed.

Lemma batch_loop_finished (rows : list row) :
  forall w acc res w',
    loop w acc rows = (res, None, w') -> Forall has_study_id rows.
Proof.
  induction rows as [|r rest IH]; intros w acc res w'; simpl; [constructor|].
  destruct (step w r) as [[rec | e | b] w1] eqn:E; [|discriminate|discriminate].
  intros H. constructor; [|eapply IH, H].
  destruct (process_row_ok_inv float_of_str world backend w w1 r rec E)
    as [Hsid _]. eauto.
Qed.

(** One iteration seen through the call counter: the counter goes up exactly
    when [patient_info] was built. *)
Lemma process_row_counting (w : world) (n : nat) (r : row) :
  process_row float_of_str (world * nat) (counting backend) (w, n) r
  = match step w r with
    | (res, w1) =>
        (res, (w1, if reaches_backend float_of_str r then S n else n))
    end.
Proof.
  unfold process_row, try_block, reaches_backend, counting.
  destruct (build_patient_info float_of_str r) as [[info e]|ex|b]; simpl;
    [|reflexivity|reflexivity].
  destruct (backend w info e) as [[c|ex|b] w1]; simpl;
    [|reflexivity|reflexivity].
  destruct (store_results r c); reflexivity.
Qed.

Lemma process_row_raise_unbuilt (w w1 : world) (r : row) (e : exn) :
  step w r = (Raise e, w1) -> reaches_backend float_of_str r = false.
Proof.
  intros H.
  destruct (process_row_raise_inv float_of_str world backend w w1 r e H)
    as (_ & Hsid & _).
  unfold reaches_backend.
  destruct (build_raises_of_missing float_of_str r "Study ID #") as [ex ->];
    [unfold patient_info_columns; simpl; tauto | exact Hsid | reflexivity].
Qed.

Lemma process_row_base_built (w w1 : world) (r : row) (b : base_exn) :
  step w r = (RaiseBase b, w1) -> reaches_backend float_of_str r = true.
Proof.
  intros H.
  destruct (process_row_base_inv float_of_str world backend w w1 r b H)
    as (info & e & Hb & _).
  unfold reaches_backend. now rewrite Hb.
Qed.

Lemma batch_loop_counting (rows : list row) :
  forall w n0 acc res st w' n,
    batch_loop float_of_str (world * nat) (counting backend) (w, n0) acc rows
    = (res, st, (w', n)) ->
    loop w acc rows = (res, st, w')
    /\ exists m,
         length res = (length acc + m)%nat
         /\ n = (n0 + length (List.filter (reaches_backend float_of_str)
                               (firstn m rows)) + last_call st)%nat.
Proof.
  induction rows as [|r rest IH]; intros w n0 acc res st w' n; simpl.
  - intros [= <- <- <- <-]. split; [reflexivity|]. exists 0%nat. simpl. lia.
  - rewrite process_row_counting.
    destruct (step w r) as [[rec | e | b] w1] eqn:E.
    + intros H. destruct (IH _ _ _ _ _ _ _ H) as (Hloop & m & Hlen & Hn).
      split; [exact Hloop|]. exists (S m). rewrite length_app in Hlen. simpl in *.
      destruct (reaches_backend float_of_str r); simpl; lia.
    + rewrite (process_row_raise_unbuilt w w1 r e E).
      intros [= <- <- <- <-]. split; [reflexivity|]. exists 0%nat. simpl. lia.
    + rewrite (process_row_base_built w w1 r b E).
      intros [= <- <- <- <-]. split; [reflexivity|]. exists 0%nat. simpl. lia.
Qed.

(** X2: on a table whose rows all have a study identifier no [Exception]
    leaves the loop.  It runs to its end, and [results] then holds one dict
    per row, unless a backend call is left by an exception that is not an
    [Exception].  Either way the i-th dict belongs to the i-th row and
    carries its identifier. *)
Theorem one_record_per_row (w : world) (rows : list row) :
  Forall has_study_id rows ->
  exists recs st w',
    process_batch float_of_str world backend w rows = (recs, st, w')
    /\ (st = None \/ exists b, st = Some (BaseException b))
    /\ (st = None -> length recs = length rows)
    /\ forall (i : nat) (rec : recommendation),
         recs !! i = Some rec ->
         exists r, rows !! i = Some r
                   /\ r !! "Study ID #" = Some (Study_ID rec)
                   /\ exists w1 w2, step w1 r = (Ok rec, w2).
Proof.
  intros Hrows.
  destruct (process_batch float_of_str world backend w rows)
    as [[recs st] w'] eqn:H.
  exists recs, st, w'. split; [reflexivity|].
  destruct (batch_loop_prefix float_of_str world backend rows _ _ _ _ _ H)
    as (recs' & Hrecs & HF & _ & Hst).
  simpl in Hrecs. subst recs'. split; [|split; [exact Hst|]].
  - destruct st as [x|]; [|now left].
    destruct (batch_loop_left rows _ _ _ _ _ H)
      as (pre & r & post & -> & _ & _ & [[_ Hnone] | (b & _ & _ & _ & -> & _)]).
    + apply Forall_app in Hrows. destruct Hrows as [_ Hr].
      apply Forall_cons in Hr. destruct Hr as [[sid Hsid] _]. congruence.
    + right. eauto.
  - intros i rec Hi.
    destruct (Forall2_lookup_r _ _ _ _ _ HF Hi) as (r & Hr & Hid & Hstep).
    apply lookup_take_Some in Hr. destruct Hr as [Hr _].
    exists r. auto.
Qed.

(** X15: the loop can be left in two ways only: by the handler's [KeyError]
    for the study identifier, at the first row without that entry, or by an
    exception that is not an [Exception] coming from the backend call for a
    row whose [patient_info] was built.  In both cases every earlier row has
    a study identifier and [results] holds one record for each of them. *)
Theorem batch_abort_only_keyerror
  (rows : list row) (w w' : world) (res : list recommendation) (x : raised) :
  process_batch float_of_str world backend w rows = (res, Some x, w') ->
  exists pre r post,
    rows = pre ++ r :: post
    /\ Forall has_study_id pre
    /\ length res = length pre
    /\ ((x = Exception (KeyError "Study ID #") /\ r !! "Study ID #" = None)
        \/ exists b info e w1,
             x = BaseException b /\ build r = Ok (info, e)
             /\ backend w1 info e = (RaiseBase b, w')).
Proof.
  intros H. destruct (batch_loop_left rows _ _ _ _ _ H)
    as (pre & r & post & H1 & H2 & H3 & H4).
  exists pre, r, post. auto.
Qed.

(** X16: provided no backend call is left by an exception that is not an
    [Exception], the loop runs to its end exactly when every row of the
    table has a study identifier. *)
Theorem batch_completes_iff (rows : list row) (w : world) :
  (forall w1 info e b w2, backend w1 info e <> (RaiseBase b, w2)) ->
  (exists res w', process_batch float_of_str world backend w rows = (res, None, w'))
  <-> Forall has_study_id rows.
Proof.
  intros Hnever. split.
  - intros (res & w' & H). eapply batch_loop_finished, H.
  - intros Hrows.
    destruct (process_batch float_of_str world backend w rows)
      as [[res st] w'] eqn:H.
    destruct st as [x|]; [exfalso|eauto].
    destruct (batch_loop_left rows _ _ _ _ _ H)
      as (pre & r & post & -> & _ & _
          & [[_ Hnone] | (b & info & e & w1 & _ & _ & Hcall)]).
    + apply Forall_app in Hrows. destruct Hrows as [_ Hr].
      apply Forall_cons in Hr. destruct Hr as [[sid Hsid] _]. congruence.
    + exact (Hnever _ _ _ _ _ Hcall).
Qed.

(** X17: the loop calls the backend once for each row that got a record and
    whose [patient_info] could be built, once more when it is left from a
    backend call, and never otherwise: no call is repeated and none is made
    for a rejected row.  Counting the calls changes neither the results nor
    the backend's state. *)
Theorem backend_called_once_per_built_row
  (rows : list row) (w w' : world) (n0 n : nat)
  (res : list recommendation) (st : option raised) :
  process_batch float_of_str (world * nat) (counting backend) (w, n0) rows
  = (res, st, (w', n)) ->
  process_batch float_of_str world backend w rows = (res, st, w')
  /\ n = (n0 + length (List.filter (reaches_backend float_of_str)
                        (firstn (length res) rows)) + last_call st)%nat.
Proof.
  intros H. destruct (batch_loop_counting rows _ _ _ _ _ _ _ H)
    as (Hloop & m & Hlen & Hn).
  split; [exact Hloop|]. simpl in Hlen. now rewrite Hlen.
Qed.

End BatchStructure.

(** ** The properties above on sample rows *)

Section SampleRuns.
Import Notebook Samples.

Local Abbreviation answer := (Ok (ODict sample_completions)).

Lemma missing_column_gives_null_record_witness :
  process_row float_rejects nat probe_backend 3%nat
    (delete "Age" (sample_row (VStr "S1") (VStr "ER") (VFloat 45)))
  = (Ok (null_recommendation (VStr "S1")), 3%nat).
Proof.
  apply (missing_column_gives_null_record float_rejects nat probe_backend 3%nat
           _ (VStr "S1") "Age");
    [reflexivity | unfold patient_info_columns; simpl; tauto | reflexivity].
Defined.

Lemma unparseable_egfr_gives_null_record_witness :
  process_row float_rejects nat probe_backend 3%nat
    (sample_row (VStr "S1") (VStr "ER") (VStr "<30"))
  = (Ok (null_recommendation (VStr "S1")), 3%nat).
Proof.
  apply (unparseable_egfr_gives_null_record float_rejects nat probe_backend 3%nat
           _ (VStr "S1") "<30"); try reflexivity.
  - intros H. simpl in H.
    repeat (destruct H as [H | H]; [discriminate H|]). destruct H.
  - vm_compute. discriminate.
Defined.

Lemma successful_row_copies_answer_witness :
  process_row float_rejects unit (fixed_backend answer) tt
    (sample_row (VStr "S1") (VStr "IP") (VStr ">90"))
  = (Ok {| Study_ID := VStr "S1"; Priority := VInt 4; Protocol := VStr "A/P";
           IV_Contrast := VStr "C+"; Oral_Contrast := VStr "None" |}, tt).
Proof.
  apply (successful_row_copies_answer float_rejects unit (fixed_backend answer)
           tt tt (sample_row (VStr "S1") (VStr "IP") (VStr ">90"))
           {| pi_Study_ID := VStr "S1"; pi_Location := VStr "IP";
              pi_Age := VInt 61; pi_Sex := VStr "F";
              pi_CT_Exam := VStr "CT abdomen pelvis";
              pi_Clinical_Info := VStr "abdominal pain";
              pi_Prior_Reaction := VStr "No"; pi_eGFR := VInt 90;
              pi_Creatinine := VFloat 80 |}
           (VInt 90) sample_completions);
    reflexivity.
Defined.

Lemma unusable_answer_gives_null_record_witness :
  exists info,
    build_patient_info float_rejects
      (sample_row (VStr "S1") (VStr "IP") (VFloat 45)) = Ok (info, VFloat 45)
    /\ process_row float_rejects unit
         (fixed_backend (Ok (ODict (delete "protocol" sample_completions)))) tt
         (sample_row (VStr "S1") (VStr "IP") (VFloat 45))
       = (Ok (null_recommendation (pi_Study_ID info)), tt).
Proof.
  eexists. split; [reflexivity|].
  eapply (unusable_answer_gives_null_record float_rejects unit _ tt tt);
    [reflexivity | reflexivity |].
  right. right. exists (delete "protocol" sample_completions), "protocol".
  split; [reflexivity|]. split; [|reflexivity].
  unfold decision_keys. simpl. tauto.
Defined.

Lemma one_record_per_row_witness :
  exists recs st w',
    process_batch float_rejects nat probe_backend 0%nat
      [sample_row (VStr "S1") (VStr "IP") (VStr "abc");
       sample_row (VStr "S2") (VStr "ER") (VFloat 45)]
    = (recs, st, w')
    /\ (st = None \/ exists b, st = Some (BaseException b)).
Proof.
  destruct (one_record_per_row float_rejects nat probe_backend 0%nat
              [sample_row (VStr "S1") (VStr "IP") (VStr "abc");
               sample_row (VStr "S2") (VStr "ER") (VFloat 45)])
    as (recs & st & w' & H1 & H2 & _).
  - repeat constructor; eexists; reflexivity.
  - exists recs, st, w'. split; [exact H1 | exact H2].
Defined.

Lemma batch_abort_only_keyerror_witness :
  exists pre r post,
    [sample_row (VStr "S1") (VStr "ER") (VFloat 45);
     row_without_study_id (VStr "OP") (VFloat 72);
     sample_row (VStr "S3") (VStr "IP") (VFloat 51)] = pre ++ r :: post
    /\ length pre = 1%nat.
Proof.
  assert (H : process_batch float_rejects unit (fixed_backend answer) tt
                [sample_row (VStr "S1") (VStr "ER") (VFloat 45);
                 row_without_study_id (VStr "OP") (VFloat 72);
                 sample_row (VStr "S3") (VStr "IP") (VFloat 51)]
              = ([{| Study_ID := VStr "S1"; Priority := VInt 4;
                     Protocol := VStr "A/P"; IV_Contrast := VStr "C+";
                     Oral_Contrast := VStr "None" |}],
                 Some (Exception (KeyError "Study ID #")), tt)) by reflexivity.
  destruct (batch_abort_only_keyerror float_rejects unit (fixed_backend answer)
              _ _ _ _ _ H) as (pre & r & post & H1 & _ & H3 & _).
  exists pre, r, post. split; [exact H1|]. symmetry. exact H3.
Defined.

Lemma batch_completes_iff_witness :
  exists res w',
    process_batch float_rejects unit (fixed_backend answer) tt
      [sample_row (VStr "S1") (VStr "ER") (VStr "<30");
       sample_row (VStr "S2") (VStr "ER") (VFloat 45)]
    = (res, None, w').
Proof.
  apply (batch_completes_iff float_rejects unit (fixed_backend answer)).
  - intros w1 info e b w2 H. discriminate H.
  - repeat constructor; eexists; reflexivity.
Defined.

Lemma backend_called_once_per_built_row_witness :
  process_batch float_rejects unit (fixed_backend answer) tt
    [sample_row (VStr "S1") (VStr "ER") (VStr "<30");
     sample_row (VStr "S2") (VStr "ER") (VFloat 45)]
  = ([null_recommendation (VStr "S1");
      {| Study_ID := VStr "S2"; Priority := VInt 4; Protocol := VStr "A/P";
         IV_Contrast := VStr "C+"; Oral_Contrast := VStr "None" |}], None, tt).
Proof.
  apply (backend_called_once_per_built_row float_rejects unit (fixed_backend answer)
           _ tt tt 0%nat 1%nat _ None).
  reflexivity.
Defined.

End SampleRuns.

(** ** Answers with a missing value *)

Section AnswerFields.
Import Notebook Samples.





End AnswerFields.
